(** * The in-process kernel manager (ipykernel/inprocess/manager.py)

    A shallow embedding of [InProcessKernelManager]: the manager object is a
    record, each method is a function in a state-and-exception monad over that
    record, and the objects the manager talks to (the kernel handle, its
    output-publishing thread, the session, the base client factory) are an
    environment of opaque collaborators.  Every call to a collaborator and
    every assignment to the [kernel] trait is recorded in a history, so that
    statements about the order of effects can be made. *)

From Stdlib Require Import String List Bool ZArith.
Import ListNotations.
Open Scope string_scope.
Open Scope list_scope.

(** ** Python exceptions and the outcome of a call *)

(** An exception object: its class name and its message. *)
Inductive PyExn : Type :=
| PyExc (cls : string) (msg : string).

Definition NotImplementedError (msg : string) : PyExn :=
  PyExc "NotImplementedError" msg.

(** What attribute access on [None] raises. *)
Definition AttributeError_None (attr : string) : PyExn :=
  PyExc "AttributeError"
        ("'NoneType' object has no attribute '" ++ attr ++ "'")%string.

(** A call that completes either returns a value or raises.  (A cancelled
    [await] surfaces in Python as an exception raised at the await point and
    is covered by [Raises].) *)
Inductive Outcome (A : Type) : Type :=
| Returns (a : A)
| Raises (e : PyExn).

Arguments Returns {A} a.
Arguments Raises {A} e.

(** ** Keyword arguments: an insertion-ordered dictionary

    Python dictionaries keep insertion order and [**kwargs] hands that order to
    the callee, so the options are an association list: [set] overwrites the
    value in place when the key is present and appends the key otherwise,
    which is what [d[k] = v] does. *)
Module Dict.

Definition t (V : Type) : Type := list (string * V).

Fixpoint get {V : Type} (k : string) (d : t V) : option V :=
  match d with
  | [] => None
  | (k', v) :: d' => if String.eqb k k' then Some v else get k d'
  end.

Fixpoint set {V : Type} (k : string) (v : V) (d : t V) : t V :=
  match d with
  | [] => [(k, v)]
  | (k', v') :: d' =>
      if String.eqb k k' then (k', v) :: d' else (k', v') :: set k v d'
  end.

Definition keys {V : Type} (d : t V) : list string := map fst d.

End Dict.

(** ** The manager, its collaborators and its methods *)

Section Model.

(** The collaborators' object types.  [Kernel] is an [InProcessKernel]
    instance, [Session] a session object, [TaskStatus] the anyio status
    token, [Client] what the base client factory produces and [Val] any
    other value a caller may pass as an option. *)
Context {Kernel Session TaskStatus Client Val : Type}.

(** [INPROCESS_KEY] of [ipykernel/inprocess/constants.py], the key the
    session is built with. *)
Variable INPROCESS_KEY : string.

(** The values found in the options of [client]. *)
Inductive PyVal : Type :=
| VNone
| VKernel (k : Kernel)
| VOther (v : Val).

Definition Kwargs : Type := Dict.t PyVal.

(** The value of the [kernel] trait as a Python value. *)
Definition py_of_kernel (k : option Kernel) : PyVal :=
  match k with
  | Some h => VKernel h
  | None => VNone
  end.

(** The history: one event per collaborator call and per assignment to the
    [kernel] trait, oldest first. *)
Inductive Event : Type :=
| EvSessionNew (key : string)
    (* Session(key=INPROCESS_KEY, parent=self) *)
| EvKernelNew (s : Session)
    (* InProcessKernel(parent=self, session=s) *)
| EvSetKernel (v : option Kernel)
    (* self.kernel = v *)
| EvKernelStart (k : Kernel) (task_status : TaskStatus)
    (* await k.start(task_status=task_status) *)
| EvIopubStop (k : Kernel)
    (* k.iopub_thread.stop() *)
| EvKernelStop (k : Kernel)
    (* k.stop() *)
| EvSuperClient (kwargs : Kwargs).
    (* super().client, called with the options unpacked *)

Definition History : Type := list Event.

(** The collaborators are opaque: what a call returns, or that it raises,
    may depend on its arguments and on everything that happened before it. *)
Record Env : Type := mkEnv {
  Session_new : string -> History -> Outcome Session;
  InProcessKernel_new : Session -> History -> Outcome Kernel;
  kernel_start : Kernel -> TaskStatus -> History -> Outcome unit;
  iopub_thread_stop : Kernel -> History -> Outcome unit;
  kernel_stop : Kernel -> History -> Outcome unit;
  super_client : Kwargs -> History -> Outcome Client
}.

Variable env : Env.

(** The manager object: the [kernel] trait ([allow_none=True], initially
    [None]), the [session] trait ([None] here while its dynamic default has
    not been computed yet) and the history. *)
Record Manager : Type := mkManager {
  kernel : option Kernel;
  session : option Session;
  log : History
}.

Definition new_manager : Manager :=
  {| kernel := None; session := None; log := [] |}.

(** A method body: it runs on the manager and completes with an outcome and
    the manager as it is then.  What was assigned before an exception stays
    assigned. *)
Definition M (A : Type) : Type := Manager -> Outcome A * Manager.

Definition ret {A : Type} (a : A) : M A := fun m => (Returns a, m).

Definition raise {A : Type} (e : PyExn) : M A := fun m => (Raises e, m).

Definition bind {A B : Type} (c : M A) (f : A -> M B) : M B :=
  fun m =>
    match c m with
    | (Returns a, m') => f a m'
    | (Raises e, m') => (Raises e, m')
    end.

Notation "x <- c1 ;; c2" := (bind c1 (fun x => c2))
  (at level 61, c1 at next level, right associativity).
Notation "c1 ;; c2" := (bind c1 (fun _ => c2))
  (at level 61, right associativity).

(** Appending an event to the history. *)
Definition record (ev : Event) (m : Manager) : Manager :=
  {| kernel := kernel m; session := session m; log := log m ++ [ev] |}.

(** Calling a collaborator: the call is recorded and its outcome is the
    collaborator's, given the history before the call. *)
Definition call {A : Type} (ev : Event) (f : History -> Outcome A) : M A :=
  fun m => (f (log m), record ev m).

(** Reading [self.kernel]. *)
Definition get_kernel : M (option Kernel) :=
  fun m => (Returns (kernel m), m).

(** [self.kernel = v]. *)
Definition store_kernel (v : option Kernel) (m : Manager) : Manager :=
  {| kernel := v; session := session m; log := log m ++ [EvSetKernel v] |}.

Definition assign_kernel (v : option Kernel) : M unit :=
  fun m => (Returns tt, store_kernel v m).

(** [self.kernel.<attr>...]: the trait is read again and the attribute
    access fails on [None]. *)
Definition on_kernel {A : Type} (attr : string) (f : Kernel -> M A) : M A :=
  k <- get_kernel ;;
  match k with
  | Some h => f h
  | None => raise (AttributeError_None attr)
  end.

(** Modelled from the spec: the class [InProcessKernel]
    (ipykernel/inprocess/ipkernel.py) is not among the sources.  The spec
    gives the handle a [start], a [stop] and a background thread, and reads
    [if self.kernel:] as "if a handle exists": a handle is an ordinary
    object, true in a condition (its class defines neither [__bool__] nor
    [__len__]), and [None] is false. *)
Definition truthy (k : option Kernel) : bool :=
  match k with
  | Some _ => true
  | None => false
  end.

(** [_default_session]: [Session(key=INPROCESS_KEY, parent=self)]. *)
Definition _default_session : M Session :=
  call (EvSessionNew INPROCESS_KEY) (Session_new env INPROCESS_KEY).

Definition store_session (s : Session) : M unit :=
  fun m =>
    (Returns tt, {| kernel := kernel m; session := Some s; log := log m |}).

(** Reading [self.session]: the dynamic default is computed at the first
    read and kept. *)
Definition get_session : M Session :=
  fun m =>
    match session m with
    | Some s => (Returns s, m)
    | None => (s <- _default_session ;; store_session s ;; ret s) m
    end.

(** [InProcessKernel(parent=self, session=self.session)]. *)
Definition construct_kernel : M Kernel :=
  s <- get_session ;;
  call (EvKernelNew s) (InProcessKernel_new env s).

(** [start_kernel(self, *, task_status, **kwds)]. *)
Definition start_kernel (task_status : TaskStatus) (kwds : Kwargs) : M unit :=
  k <- construct_kernel ;;
  assign_kernel (Some k) ;;
  on_kernel "start"
    (fun h => call (EvKernelStart h task_status)
                   (kernel_start env h task_status)).

(** [_kill_kernel(self)]. *)
Definition _kill_kernel : M unit :=
  k <- get_kernel ;;
  if truthy k then
    on_kernel "stop" (fun h => call (EvKernelStop h) (kernel_stop env h)) ;;
    assign_kernel None
  else ret tt.

(** [shutdown_kernel(self)]. *)
Definition shutdown_kernel : M unit :=
  k <- get_kernel ;;
  if truthy k then
    on_kernel "iopub_thread"
      (fun h => call (EvIopubStop h) (iopub_thread_stop env h)) ;;
    _kill_kernel
  else ret tt.

(** [restart_kernel(self, now, newports, *, task_status, **kw)]. *)
Definition restart_kernel (now newports : bool)
           (task_status : TaskStatus) (kw : Kwargs) : M unit :=
  shutdown_kernel ;;
  start_kernel task_status kw.

(** The property [has_kernel]. *)
Definition has_kernel : M bool :=
  k <- get_kernel ;;
  ret (match k with Some _ => true | None => false end).

(** [interrupt_kernel(self)]. *)
Definition interrupt_kernel : M unit :=
  let msg := "Cannot interrupt in-process kernel." in
  raise (NotImplementedError msg).

(** [signal_kernel(self, signum)]. *)
Definition signal_kernel (signum : Z) : M unit :=
  let msg := "Cannot signal in-process kernel." in
  raise (NotImplementedError msg).

(** [is_alive(self)]: [self.kernel is not None]. *)
Definition is_alive : M bool :=
  k <- get_kernel ;;
  ret (match k with Some _ => true | None => false end).

(** [client(self, **kwargs)]. *)
Definition client (kwargs : Kwargs) : M Client :=
  k <- get_kernel ;;
  let kwargs' := Dict.set "kernel" (py_of_kernel k) kwargs in
  call (EvSuperClient kwargs') (super_client env kwargs').

(** The spec's account of a restart, for comparison with [restart_kernel]:
    a shutdown, and when it has returned, a start with the same status
    token and options.  It takes no flags. *)
Definition shutdown_then_start
           (task_status : TaskStatus) (kw : Kwargs) : M unit :=
  fun m =>
    match shutdown_kernel m with
    | (Returns _, m1) => start_kernel task_status kw m1
    | (Raises e, m1) => (Raises e, m1)
    end.

(** The ways the startup of a handle fails with [e] from the manager [m]:
    in the constructor call (or in computing the session passed to it), or
    in the handle's [start] once the handle has been built and assigned. *)
Definition startup_raises
           (task_status : TaskStatus) (m : Manager) (e : PyExn) : Prop :=
  fst (construct_kernel m) = Raises e \/
  exists k m1,
    construct_kernel m = (Returns k, m1) /\
    kernel_start env k task_status (log (store_kernel (Some k) m1))
    = Raises e.

(** The calls a frontend can make on the manager. *)
Inductive Op : Type :=
| OpStart (task_status : TaskStatus) (kwds : Kwargs)
| OpShutdown
| OpRestart (now newports : bool) (task_status : TaskStatus) (kw : Kwargs)
| OpHasKernel
| OpInterrupt
| OpSignal (signum : Z)
| OpIsAlive
| OpClient (kwargs : Kwargs)
| OpSession.
    (* reading the attribute [session] *)

(** The manager after a call, whether the call returned or raised. *)
Definition after (op : Op) (m : Manager) : Manager :=
  match op with
  | OpStart ts kwds => snd (start_kernel ts kwds m)
  | OpShutdown => snd (shutdown_kernel m)
  | OpRestart now newports ts kw => snd (restart_kernel now newports ts kw m)
  | OpHasKernel => snd (has_kernel m)
  | OpInterrupt => snd (interrupt_kernel m)
  | OpSignal signum => snd (signal_kernel signum m)
  | OpIsAlive => snd (is_alive m)
  | OpClient kwargs => snd (client kwargs m)
  | OpSession => snd (get_session m)
  end.

Definition run_ops (ops : list Op) (m : Manager) : Manager :=
  fold_left (fun m' op => after op m') ops m.

(** The calls that start a kernel. *)
Definition starts (op : Op) : bool :=
  match op with
  | OpStart _ _ | OpRestart _ _ _ _ => true
  | _ => false
  end.

(** The managers on which no start has occurred yet: a new manager, after
    any calls none of which is a start or a restart. *)
Definition before_any_start (m : Manager) : Prop :=
  exists ops,
    forallb (fun op => negb (starts op)) ops = true /\
    m = run_ops ops new_manager.

(** The managers a frontend can arrive at: a new manager after any calls. *)
Definition reachable (m : Manager) : Prop :=
  exists ops, m = run_ops ops new_manager.

(** The events that stop a handle or its output-publishing thread. *)
Definition is_stop (ev : Event) : bool :=
  match ev with
  | EvIopubStop _ | EvKernelStop _ => true
  | _ => false
  end.

(** The events that leave the session [s] in charge: no session is built,
    and a kernel that is built is built on [s]. *)
Definition keeps_session (s : Session) (ev : Event) : Prop :=
  match ev with
  | EvSessionNew _ => False
  | EvKernelNew s' => s' = s
  | _ => True
  end.

End Model.

(** ** Concrete collaborators, to run the methods on

    Handles and sessions are numbers (a new handle is numbered by the length
    of the history at its construction), a client is the options it was built
    from. *)
Module Demo.

Definition Options : Type := @Kwargs nat nat.

Definition Collaborators : Type := @Env nat nat unit Options nat.

(** Every call returns. *)
Definition quiet : Collaborators :=
  {| Session_new := fun _ _ => Returns 0;
     InProcessKernel_new := fun _ h => Returns (length h);
     kernel_start := fun _ _ _ => Returns tt;
     iopub_thread_stop := fun _ _ => Returns tt;
     kernel_stop := fun _ _ => Returns tt;
     super_client := fun kw _ => Returns kw |}.

Definition boom : PyExn := PyExc "RuntimeError" "kernel failed to start".

(** The handle is built, its [start] raises. *)
Definition failing_start : Collaborators :=
  {| Session_new := fun _ _ => Returns 0;
     InProcessKernel_new := fun _ h => Returns (length h);
     kernel_start := fun _ _ _ => Raises boom;
     iopub_thread_stop := fun _ _ => Returns tt;
     kernel_stop := fun _ _ => Returns tt;
     super_client := fun kw _ => Returns kw |}.

Definition key : string := "inprocess".

Definition fresh : @Manager nat nat unit nat := new_manager.

(** A manager holding handle 7. *)
Definition running : @Manager nat nat unit nat :=
  {| kernel := Some 7; session := Some 0;
     log := [EvSessionNew key; EvKernelNew 0; EvSetKernel (Some 7);
             EvKernelStart 7 tt] |}.

(** The fresh manager after a start, and the running one after a shutdown,
    with every call returning. *)
Definition started : @Manager nat nat unit nat :=
  snd (start_kernel key quiet tt [] fresh).

Definition stopped : @Manager nat nat unit nat :=
  snd (shutdown_kernel quiet running).

(** A manager that was asked things, but never to start. *)
Definition idle : @Manager nat nat unit nat :=
  run_ops key quiet [OpIsAlive; OpShutdown; OpSession; OpSignal 2] fresh.

(** The options of a caller who names a kernel of their own. *)
Definition options : Options := [("shell", VOther 1); ("kernel", VKernel 3)].

Definition stuck : PyExn := PyExc "RuntimeError" "thread will not stop".

(** The output-publishing thread refuses to stop. *)
Definition failing_iopub_stop : Collaborators :=
  {| Session_new := fun _ _ => Returns 0;
     InProcessKernel_new := fun _ h => Returns (length h);
     kernel_start := fun _ _ _ => Returns tt;
     iopub_thread_stop := fun _ _ => Raises stuck;
     kernel_stop := fun _ _ => Returns tt;
     super_client := fun kw _ => Returns kw |}.

Definition no_kernel : PyExn := PyExc "ImportError" "no kernel to build".

(** The constructor of the handle raises. *)
Definition failing_new : Collaborators :=
  {| Session_new := fun _ _ => Returns 0;
     InProcessKernel_new := fun _ _ => Raises no_kernel;
     kernel_start := fun _ _ _ => Returns tt;
     iopub_thread_stop := fun _ _ => Returns tt;
     kernel_stop := fun _ _ => Returns tt;
     super_client := fun kw _ => Returns kw |}.

Definition no_session : PyExn := PyExc "ValueError" "no session".

(** The constructor of the session raises. *)
Definition failing_session : Collaborators :=
  {| Session_new := fun _ _ => Raises no_session;
     InProcessKernel_new := fun _ h => Returns (length h);
     kernel_start := fun _ _ _ => Returns tt;
     iopub_thread_stop := fun _ _ => Returns tt;
     kernel_stop := fun _ _ => Returns tt;
     super_client := fun kw _ => Returns kw |}.

Definition no_client : PyExn := PyExc "TypeError" "no client to build".

(** The base client factory raises. *)
Definition failing_client : Collaborators :=
  {| Session_new := fun _ _ => Returns 0;
     InProcessKernel_new := fun _ h => Returns (length h);
     kernel_start := fun _ _ _ => Returns tt;
     iopub_thread_stop := fun _ _ => Returns tt;
     kernel_stop := fun _ _ => Returns tt;
     super_client := fun _ _ => Raises no_client |}.

(** The running manager after a restart, with every call returning. *)
Definition restarted : @Manager nat nat unit nat :=
  snd (restart_kernel key quiet true false tt [] running).

(** The running manager after [_kill_kernel] and after a second start, and
    a few calls to make on it. *)
Definition killed : @Manager nat nat unit nat :=
  snd (_kill_kernel quiet running).

Definition started_over : @Manager nat nat unit nat :=
  snd (start_kernel key quiet tt [] running).

Definition calls : list (@Op nat unit nat) :=
  [OpClient options; OpShutdown; OpStart tt []; OpIsAlive;
   OpRestart false true tt options; OpSession].

End Demo.

(** * Properties *)

(** ** The dictionary *)
Module DictFacts.

Section Facts.

Context {V : Type}.
Implicit Types (k : string) (v : V) (d : Dict.t V).

Lemma get_set_same k v d : Dict.get k (Dict.set k v d) = Some v.
Proof.
  induction d as [|[k' v'] d IH]; simpl.
  - now rewrite String.eqb_refl.
  - destruct (String.eqb k k') eqn:E; simpl; rewrite E; auto.
Qed.

Lemma get_set_other k k' v d :
  k <> k' -> Dict.get k' (Dict.set k v d) = Dict.get k' d.
Proof.
  intros Hne. induction d as [|[k0 v0] d IH]; simpl.
  - destruct (String.eqb k' k) eqn:E; auto.
    apply String.eqb_eq in E. congruence.
  - destruct (String.eqb k k0) eqn:E; simpl.
    + apply String.eqb_eq in E. subst k0.
      destruct (String.eqb k' k) eqn:E'; auto.
      apply String.eqb_eq in E'. congruence.
    + now rewrite IH.
Qed.

(** A second assignment to a key replaces the first, in place. *)
Lemma set_set k v v' d :
  Dict.set k v (Dict.set k v' d) = Dict.set k v d.
Proof.
  induction d as [|[k0 v0] d IH]; simpl.
  - now rewrite String.eqb_refl.
  - destruct (String.eqb k k0) eqn:E; simpl; rewrite E; auto.
    now rewrite IH.
Qed.

(** Assigning to a key that is present leaves the order of keys alone. *)
Lemma keys_set_present k v d :
  In k (Dict.keys d) -> Dict.keys (Dict.set k v d) = Dict.keys d.
Proof.
  unfold Dict.keys. induction d as [|[k0 v0] d IH]; simpl.
  - tauto.
  - intros [Hk | Hk]; destruct (String.eqb k k0) eqn:E; simpl; auto.
    + subst k0. now rewrite String.eqb_refl in E.
    + now rewrite IH.
Qed.

(** Assigning to a key that is absent appends it. *)
Lemma keys_set_absent k v d :
  ~ In k (Dict.keys d) -> Dict.keys (Dict.set k v d) = Dict.keys d ++ [k].
Proof.
  unfold Dict.keys. induction d as [|[k0 v0] d IH]; simpl; auto.
  intros Hk. destruct (String.eqb k k0) eqn:E; simpl.
  - apply String.eqb_eq in E. exfalso. apply Hk. now left.
  - rewrite IH; auto.
Qed.

End Facts.

End DictFacts.

(** ** The manager *)

(** Unfolding the monad down to the collaborators' answers. *)
Ltac run :=
  unfold shutdown_kernel, _kill_kernel, start_kernel, restart_kernel,
    shutdown_then_start, client, is_alive, has_kernel, interrupt_kernel,
    signal_kernel, on_kernel, assign_kernel, get_kernel, call, bind, ret,
    raise;
  simpl.

Ltac unfold_start := unfold start_kernel.
Ltac unfold_shutdown := unfold shutdown_kernel.
Ltac unfold_kill := unfold _kill_kernel.
Ltac unfold_restart := unfold restart_kernel, shutdown_then_start.

Section Properties.

Context {Kernel Session TaskStatus Client Val : Type}.
Variable INPROCESS_KEY : string.
Variable env : @Env Kernel Session TaskStatus Client Val.

Local Abbreviation Manager := (@Manager Kernel Session TaskStatus Val).
Local Abbreviation Kwargs := (@Kwargs Kernel Val).
Local Abbreviation Event := (@Event Kernel Session TaskStatus Val).
Local Abbreviation construct_kernel := (construct_kernel INPROCESS_KEY env).
Local Abbreviation start_kernel := (start_kernel INPROCESS_KEY env).
Local Abbreviation shutdown_kernel := (shutdown_kernel env).
Local Abbreviation _kill_kernel := (_kill_kernel env).
Local Abbreviation restart_kernel := (restart_kernel INPROCESS_KEY env).
Local Abbreviation shutdown_then_start := (shutdown_then_start INPROCESS_KEY env).
Local Abbreviation client := (client env).
Local Abbreviation startup_raises := (startup_raises INPROCESS_KEY env).
Local Abbreviation before_any_start := (before_any_start INPROCESS_KEY env).
Local Abbreviation after := (after INPROCESS_KEY env).
Local Abbreviation run_ops := (run_ops INPROCESS_KEY env).

Implicit Types (m : Manager) (k : Kernel) (e : PyExn) (kw : Kwargs)
         (ts : TaskStatus).

(** *** How the methods run *)

Lemma shutdown_kernel_no_handle m :
  kernel m = None -> shutdown_kernel m = (Returns tt, m).
Proof. intros H. run. now rewrite H. Qed.

Lemma on_kernel_handle {A : Type} attr (f : Kernel -> M A) m k :
  kernel m = Some k -> on_kernel attr f m = f k m.
Proof. intros H. unfold on_kernel, bind, get_kernel. now rewrite H. Qed.

Lemma _kill_kernel_handle m k :
  kernel m = Some k ->
  _kill_kernel m =
  match kernel_stop env k (log m) with
  | Returns _ => (Returns tt, store_kernel None (record (EvKernelStop k) m))
  | Raises e => (Raises e, record (EvKernelStop k) m)
  end.
Proof.
  intros H. unfold_kill. unfold bind at 1, get_kernel. rewrite H. simpl.
  unfold bind. rewrite (on_kernel_handle _ _ m k H). unfold call.
  now destruct (kernel_stop env k (log m)).
Qed.

(** With a handle held, a shutdown is decided by the two [stop] calls. *)
Lemma shutdown_kernel_handle m k :
  kernel m = Some k ->
  shutdown_kernel m =
  match iopub_thread_stop env k (log m) with
  | Raises e => (Raises e, record (EvIopubStop k) m)
  | Returns _ =>
      let m1 := record (EvIopubStop k) m in
      match kernel_stop env k (log m1) with
      | Raises e => (Raises e, record (EvKernelStop k) m1)
      | Returns _ =>
          (Returns tt, store_kernel None (record (EvKernelStop k) m1))
      end
  end.
Proof.
  intros H. unfold_shutdown. unfold bind at 1, get_kernel. rewrite H. simpl.
  unfold bind. rewrite (on_kernel_handle _ _ m k H). unfold call.
  destruct (iopub_thread_stop env k (log m)); [|reflexivity].
  now rewrite (_kill_kernel_handle (record (EvIopubStop k) m) k H).
Qed.

(** A shutdown that returns leaves no handle. *)
Lemma shutdown_kernel_returns_clears m m' :
  shutdown_kernel m = (Returns tt, m') -> kernel m' = None.
Proof.
  destruct (kernel m) as [k|] eqn:H.
  - rewrite (shutdown_kernel_handle m k H).
    destruct (iopub_thread_stop env k (log m)); [|discriminate].
    simpl. destruct (kernel_stop env k _); [|discriminate].
    now intros [= <-].
  - rewrite (shutdown_kernel_no_handle m H). now intros [= <-].
Qed.

Lemma start_kernel_construct_raises ts kw m e m1 :
  construct_kernel m = (Raises e, m1) ->
  start_kernel ts kw m = (Raises e, m1).
Proof. intros H. unfold_start. unfold bind at 1. now rewrite H. Qed.

(** Once the handle is built, it is assigned and its [start] decides. *)
Lemma start_kernel_constructed ts kw m k m1 :
  construct_kernel m = (Returns k, m1) ->
  start_kernel ts kw m =
  (kernel_start env k ts (log (store_kernel (Some k) m1)),
   record (EvKernelStart k ts) (store_kernel (Some k) m1)).
Proof.
  intros H. unfold_start. unfold bind at 1. rewrite H.
  reflexivity.
Qed.

(** However a start ends, a handle is held as soon as one was built. *)
Lemma start_kernel_returns_handle ts kw m m' :
  start_kernel ts kw m = (Returns tt, m') -> exists k, kernel m' = Some k.
Proof.
  destruct (construct_kernel m) as [[k|e] m1] eqn:H.
  - rewrite (start_kernel_constructed ts kw m k m1 H).
    intros [= _ <-]. now exists k.
  - now rewrite (start_kernel_construct_raises ts kw m e m1 H).
Qed.

(** Reading the session, computing its default if need be, does not touch
    the [kernel] trait. *)
Lemma get_session_keeps_kernel m :
  kernel (snd (get_session INPROCESS_KEY env m)) = kernel m.
Proof.
  unfold get_session. destruct (session m) as [s|]; [reflexivity|].
  unfold bind, _default_session, call, store_session, ret.
  now destruct (Session_new env INPROCESS_KEY (log m)).
Qed.

Lemma after_keeps_no_handle op m :
  starts op = false -> kernel m = None -> kernel (after op m) = None.
Proof.
  destruct op; simpl; try discriminate; intros _ H; auto.
  - now rewrite (shutdown_kernel_no_handle m H).
  - now rewrite get_session_keeps_kernel.
Qed.

Lemma run_ops_keeps_no_handle ops m :
  forallb (fun op => negb (starts op)) ops = true ->
  kernel m = None -> kernel (run_ops ops m) = None.
Proof.
  revert m. induction ops as [|op ops IH]; simpl; intros m Hops H; auto.
  apply andb_true_iff in Hops. destruct Hops as [Hop Hops].
  apply IH; auto. apply after_keeps_no_handle; auto.
  now apply negb_true_iff.
Qed.

Lemma before_any_start_no_handle m :
  before_any_start m -> kernel m = None.
Proof.
  intros (ops & Hops & ->). now apply run_ops_keeps_no_handle.
Qed.

(** *** The claims *)

(** C1. In every state of the manager, [is_alive] returns true exactly when a
    handle is held (the [kernel] trait is not [None]); it is a query: it
    returns, and the manager, history included, is as it was. *)
Theorem is_alive_iff_handle_held m :
  exists b : bool,
    is_alive m = (Returns b, m) /\ (b = true <-> kernel m <> None).
Proof.
  run. destruct (kernel m) as [k|]; eexists; (split; [reflexivity|]).
  - split; [discriminate | reflexivity].
  - split; [discriminate | congruence].
Qed.

(** C2. A start followed by a shutdown: once [start_kernel] has returned
    [is_alive] answers true, and once [shutdown_kernel] has then returned
    [is_alive] answers false. *)
Theorem alive_after_start_until_shutdown ts kw m m1 m2 :
  start_kernel ts kw m = (Returns tt, m1) ->
  shutdown_kernel m1 = (Returns tt, m2) ->
  is_alive m1 = (Returns true, m1) /\ is_alive m2 = (Returns false, m2).
Proof.
  intros Hstart Hstop.
  destruct (start_kernel_returns_handle ts kw m m1 Hstart) as [k Hk].
  pose proof (shutdown_kernel_returns_clears m1 m2 Hstop) as Hnone.
  run. now rewrite Hk, Hnone.
Qed.

(** C3. With no handle held, [shutdown_kernel] returns without raising and
    leaves the manager as it was, and [is_alive] still answers false.  That is
    the state a shutdown that returned leaves behind, so a second shutdown in
    a row returns too and changes nothing. *)
Theorem shutdown_without_handle_is_noop m m0 :
  kernel m = None \/ shutdown_kernel m0 = (Returns tt, m) ->
  shutdown_kernel m = (Returns tt, m) /\ is_alive m = (Returns false, m).
Proof.
  intros H.
  assert (Hnone : kernel m = None).
  { destruct H as [H | H]; [exact H|].
    exact (shutdown_kernel_returns_clears m0 m H). }
  split.
  - now apply shutdown_kernel_no_handle.
  - run. now rewrite Hnone.
Qed.

(** C4. Whatever the flags [now] and [newports], [restart_kernel] does what a
    shutdown followed by a start with the same status token and options does:
    same outcome, same manager, same history.  The flags change nothing. *)
Theorem restart_is_shutdown_then_start (now newports : bool) ts kw m :
  restart_kernel now newports ts kw m = shutdown_then_start ts kw m /\
  forall now' newports' : bool,
    restart_kernel now' newports' ts kw m = restart_kernel now newports ts kw m.
Proof.
  split; [|reflexivity].
  unfold_restart. unfold bind at 1.
  destruct (shutdown_kernel m) as [[[]|e] m1]; reflexivity.
Qed.

(** C5. In every state of the manager and for every signal number,
    [interrupt_kernel] and [signal_kernel] raise [NotImplementedError] (the
    spec's UnsupportedOperation) with a fixed message; they never return, and
    the manager is as it was. *)
Theorem interrupt_and_signal_always_raise m (signum : Z) :
  interrupt_kernel m
  = (Raises (NotImplementedError "Cannot interrupt in-process kernel."), m) /\
  signal_kernel signum m
  = (Raises (NotImplementedError "Cannot signal in-process kernel."), m) /\
  (forall u : unit, fst (interrupt_kernel m) <> Returns u) /\
  (forall u : unit, fst (signal_kernel signum m) <> Returns u).
Proof. repeat split; discriminate. Qed.


(** C7. A shutdown with the handle [k] held begins by stopping the
    output-publishing thread of [k].  Either that call and the kernel's own
    [stop] return, the assignment of [None] to [kernel] comes last and the
    shutdown returns; or one of them raises, the shutdown raises, [kernel] is
    never assigned and [k] is still held.  So the reference is cleared only
    after the thread was stopped. *)
Theorem shutdown_stops_iopub_before_release m k r m' :
  kernel m = Some k ->
  shutdown_kernel m = (r, m') ->
  exists evs,
    log m' = log m ++ EvIopubStop k :: evs /\
    ((iopub_thread_stop env k (log m) = Returns tt /\
      evs = [EvKernelStop k; EvSetKernel None] /\
      kernel m' = None /\ r = Returns tt)
     \/
     (kernel m' = Some k /\
      (forall v, ~ In (EvSetKernel v) evs) /\
      exists e, r = Raises e)).
Proof.
  intros Hk. rewrite (shutdown_kernel_handle m k Hk).
  destruct (iopub_thread_stop env k (log m)) as [[]|e] eqn:Hio.
  - simpl. destruct (kernel_stop env k (log m ++ [EvIopubStop k])) as [[]|e].
    + intros [= <- <-]. exists [EvKernelStop k; EvSetKernel None]. split.
      * simpl. now rewrite <- !app_assoc.
      * left. auto.
    + intros [= <- <-]. exists [EvKernelStop k]. split.
      * simpl. now rewrite <- !app_assoc.
      * right. repeat split; auto.
        -- intros v [Hin | []]. discriminate.
        -- now exists e.
  - intros [= <- <-]. exists []. split; [reflexivity|].
    right. repeat split; auto. now exists e.
Qed.

(** C8. An exception raised by the construction of the handle or by the
    handle's [start] is what [start_kernel] raises, the very same exception;
    and it is what [restart_kernel] raises when its shutdown has returned and
    its start meets it. *)
Theorem startup_errors_propagate ts kw m e :
  startup_raises ts m e ->
  fst (start_kernel ts kw m) = Raises e /\
  forall (now newports : bool) m0,
    shutdown_kernel m0 = (Returns tt, m) ->
    fst (restart_kernel now newports ts kw m0) = Raises e.
Proof.
  intros H.
  assert (Hstart : fst (start_kernel ts kw m) = Raises e).
  { destruct H as [H | (k & m1 & Hc & Hs)].
    - destruct (construct_kernel m) as [o m1] eqn:Hc. simpl in H. subst o.
      now rewrite (start_kernel_construct_raises ts kw m e m1 Hc).
    - now rewrite (start_kernel_constructed ts kw m k m1 Hc). }
  split; [exact Hstart|].
  intros now newports m0 Hstop.
  unfold_restart. unfold bind at 1. now rewrite Hstop.
Qed.

(** C9. When the handle [k] is built and its [start] raises [e],
    [start_kernel] raises [e] with [k] already assigned to [kernel] and not
    taken back: [is_alive] answers true after the failed start. *)
Theorem failed_start_keeps_handle ts kw m k m1 e :
  construct_kernel m = (Returns k, m1) ->
  kernel_start env k ts (log (store_kernel (Some k) m1)) = Raises e ->
  exists m2,
    start_kernel ts kw m = (Raises e, m2) /\
    kernel m2 = Some k /\
    is_alive m2 = (Returns true, m2).
Proof.
  intros Hc Hs. eexists. split; [|split].
  - rewrite (start_kernel_constructed ts kw m k m1 Hc), Hs. reflexivity.
  - reflexivity.
  - reflexivity.
Qed.

(** C10. Whatever options the caller gives, the base client factory is called
    with options in which [kernel] is the handle the manager holds ([None]
    when it holds none) and every other option is the caller's; a [kernel]
    option of the caller is overwritten, so it changes nothing. *)
Theorem client_overwrites_kernel_option kw m :
  client kw m
  = (super_client env (Dict.set "kernel" (py_of_kernel (kernel m)) kw) (log m),
     record (EvSuperClient (Dict.set "kernel" (py_of_kernel (kernel m)) kw)) m)
  /\
  Dict.get "kernel" (Dict.set "kernel" (py_of_kernel (kernel m)) kw)
  = Some (py_of_kernel (kernel m)) /\
  (forall key : string,
      key <> "kernel" ->
      Dict.get key (Dict.set "kernel" (py_of_kernel (kernel m)) kw)
      = Dict.get key kw) /\
  (forall v : PyVal, client (Dict.set "kernel" v kw) m = client kw m).
Proof.
  split; [reflexivity|]. split; [apply DictFacts.get_set_same|]. split.
  - intros key Hkey. apply DictFacts.get_set_other. congruence.
  - intros v. run. now rewrite DictFacts.set_set.
Qed.

(** *** More on how the methods run *)

Local Abbreviation get_session := (get_session INPROCESS_KEY env).
Local Abbreviation reachable := (reachable INPROCESS_KEY env).

(** Reading the session: it is there, or its default is built and kept, or
    building the default raises and nothing is kept. *)
Lemma get_session_cases m r m1 :
  get_session m = (r, m1) ->
  kernel m1 = kernel m /\
  ((exists s, session m = Some s /\ r = Returns s /\ m1 = m) \/
   (exists s,
       session m = None /\ r = Returns s /\ session m1 = Some s /\
       log m1 = log m ++ [EvSessionNew INPROCESS_KEY]) \/
   (exists e,
       session m = None /\ r = Raises e /\ session m1 = None /\
       log m1 = log m ++ [EvSessionNew INPROCESS_KEY])).
Proof.
  unfold get_session. destruct (session m) as [s|] eqn:Hs.
  - intros [= <- <-]. split; [reflexivity|]. left. now exists s.
  - unfold bind, _default_session, call, store_session, ret.
    destruct (Session_new env INPROCESS_KEY (log m)) as [s|e];
      intros [= <- <-]; (split; [reflexivity|]); right.
    + left. now exists s.
    + right. now exists e.
Qed.

(** Building the handle: what it appends to the history, and what it leaves
    in the [session] trait. *)
Lemma construct_kernel_cases m r m1 :
  construct_kernel m = (r, m1) ->
  kernel m1 = kernel m /\
  exists pre,
    ((session m = None /\ pre = [EvSessionNew INPROCESS_KEY]) \/
     ((exists s, session m = Some s) /\ pre = [])) /\
    ((exists e,
         r = Raises e /\ session m = None /\ session m1 = None /\
         log m1 = log m ++ pre) \/
     (exists s,
         session m1 = Some s /\
         (forall s0, session m = Some s0 -> s0 = s) /\
         r = InProcessKernel_new env s (log m ++ pre) /\
         log m1 = log m ++ pre ++ [EvKernelNew s])).
Proof.
  unfold construct_kernel. unfold bind at 1.
  destruct (get_session m) as [[s|e] m0] eqn:Hg;
    destruct (get_session_cases m _ m0 Hg)
      as [Hk [(s' & Hs & Hr & Hm) | [(s' & Hs & Hr & Hs' & Hlog)
                                    | (e' & Hs & Hr & Hs' & Hlog)]]];
    try discriminate.
  - injection Hr as <-. subst m0. unfold call. intros [= <- <-].
    split; [reflexivity|]. exists []. split; [right; eauto|].
    right. exists s. simpl. rewrite app_nil_r. repeat split; auto.
    congruence.
  - injection Hr as <-. unfold call. intros [= <- <-].
    split; [exact Hk|]. exists [EvSessionNew INPROCESS_KEY].
    split; [left; auto|]. right. exists s. simpl. rewrite Hlog, <- app_assoc.
    repeat split; auto. congruence.
  - injection Hr as <-. intros [= <- <-].
    split; [exact Hk|]. exists [EvSessionNew INPROCESS_KEY].
    split; [left; auto|]. left. exists e. auto.
Qed.

(** A start either stops at the construction of the handle, or assigns the
    handle and is decided by the handle's [start]. *)
Lemma start_kernel_cases ts kw m r m' :
  start_kernel ts kw m = (r, m') ->
  (exists e, construct_kernel m = (Raises e, m') /\ r = Raises e) \/
  (exists k m1,
      construct_kernel m = (Returns k, m1) /\
      r = kernel_start env k ts (log (store_kernel (Some k) m1)) /\
      m' = record (EvKernelStart k ts) (store_kernel (Some k) m1)).
Proof.
  destruct (construct_kernel m) as [[k|e] m1] eqn:Hc.
  - rewrite (start_kernel_constructed ts kw m k m1 Hc).
    intros [= <- <-]. right. now exists k, m1.
  - rewrite (start_kernel_construct_raises ts kw m e m1 Hc).
    intros [= <- <-]. left. now exists e.
Qed.

(** What a shutdown can do to the manager. *)
Lemma shutdown_kernel_cases m r m' :
  shutdown_kernel m = (r, m') ->
  session m' = session m /\
  exists evs,
    log m' = log m ++ evs /\
    (forall ev, In ev evs -> is_stop ev = true \/ ev = EvSetKernel None) /\
    ((r = Returns tt /\ kernel m' = None) \/
     (exists e,
         r = Raises e /\ kernel m' = kernel m /\ kernel m <> None /\
         forall ev, In ev evs -> is_stop ev = true)).
Proof.
  destruct (kernel m) as [k|] eqn:Hk.
  - rewrite (shutdown_kernel_handle m k Hk).
    destruct (iopub_thread_stop env k (log m)) as [[]|e].
    + simpl. destruct (kernel_stop env k (log m ++ [EvIopubStop k])) as [[]|e];
        intros [= <- <-]; (split; [reflexivity|]).
      * exists [EvIopubStop k; EvKernelStop k; EvSetKernel None].
        simpl. rewrite <- !app_assoc. split; [reflexivity|]. split; [|now left].
        intros ev [<- | [<- | [<- | []]]]; auto.
      * exists [EvIopubStop k; EvKernelStop k].
        simpl. rewrite <- !app_assoc. split; [reflexivity|]. split.
        -- intros ev [<- | [<- | []]]; auto.
        -- right. exists e. repeat split; auto; try congruence.
           intros ev [<- | [<- | []]]; auto.
    + intros [= <- <-]. split; [reflexivity|]. exists [EvIopubStop k].
      split; [reflexivity|]. split.
      * intros ev [<- | []]; auto.
      * right. exists e. repeat split; auto; try congruence.
        intros ev [<- | []]; auto.
  - rewrite (shutdown_kernel_no_handle m Hk). intros [= <- <-].
    split; [reflexivity|]. exists []. rewrite app_nil_r.
    split; [reflexivity|]. split; [intros ev []|]. now left.
Qed.

(** A restart, step by step. *)
Lemma restart_kernel_steps (now newports : bool) ts kw m :
  restart_kernel now newports ts kw m =
  match shutdown_kernel m with
  | (Returns _, m1) => start_kernel ts kw m1
  | (Raises e, m1) => (Raises e, m1)
  end.
Proof. reflexivity. Qed.

(** *** Further properties of the methods *)



(** X3. When the construction of the handle raises, [start_kernel] raises
    the same before anything is assigned: the [kernel] trait is what it was,
    a handle held before is still held, and no handle is started. *)
Theorem start_kernel_failed_construction_keeps_handle ts kw m e m1 :
  construct_kernel m = (Raises e, m1) ->
  start_kernel ts kw m = (Raises e, m1) /\
  kernel m1 = kernel m /\
  exists evs,
    log m1 = log m ++ evs /\
    (forall v, ~ In (EvSetKernel v) evs) /\
    (forall k ts', ~ In (EvKernelStart k ts') evs).
Proof.
  intros Hc. split; [now apply start_kernel_construct_raises|].
  destruct (construct_kernel_cases m _ _ Hc)
    as (Hk & pre & Hpre & [(e' & _ & _ & _ & Hlog) | (s & _ & _ & _ & Hlog)]);
    (split; [exact Hk|]).
  - exists pre. split; [exact Hlog|].
    destruct Hpre as [[_ ->] | [_ ->]]; split; intros;
      try (intros [H | []]; discriminate); intros [].
  - exists (pre ++ [EvKernelNew s]). split; [exact Hlog|].
    destruct Hpre as [[_ ->] | [_ ->]]; split; intros; simpl;
      intuition discriminate.
Qed.

(** X4. With no handle held, a restart is a start: the shutdown part does
    nothing, so outcome, manager and history are those of [start_kernel]. *)
Theorem restart_without_handle_is_start (now newports : bool) ts kw m :
  kernel m = None ->
  restart_kernel now newports ts kw m = start_kernel ts kw m.
Proof.
  intros H. unfold restart_kernel. unfold bind at 1.
  now rewrite (shutdown_kernel_no_handle m H).
Qed.

(** X5. When the shutdown part of a restart raises, the restart raises the
    same and goes no further: no session and no handle is built, nothing is
    assigned, and the handle held before is still held. *)
Theorem restart_failed_shutdown_does_not_start
        (now newports : bool) ts kw m e m1 :
  shutdown_kernel m = (Raises e, m1) ->
  restart_kernel now newports ts kw m = (Raises e, m1) /\
  kernel m1 = kernel m /\ kernel m <> None /\
  session m1 = session m /\
  exists evs,
    log m1 = log m ++ evs /\ forall ev, In ev evs -> is_stop ev = true.
Proof.
  intros H. split.
  - unfold restart_kernel. unfold bind at 1. now rewrite H.
  - destruct (shutdown_kernel_cases m _ _ H)
      as (Hs & evs & Hlog & _ & [[Hr _] | (e' & _ & Hk & Hne & Hev)]);
      [discriminate|].
    repeat split; auto. now exists evs.
Qed.


(** X7. A restart whose shutdown returned and whose construction of the new
    handle raises leaves the manager with no handle at all: the restart
    raises and [is_alive] answers false. *)
Theorem restart_failed_construction_leaves_no_handle
        (now newports : bool) ts kw m m1 e m2 :
  shutdown_kernel m = (Returns tt, m1) ->
  construct_kernel m1 = (Raises e, m2) ->
  restart_kernel now newports ts kw m = (Raises e, m2) /\
  kernel m2 = None /\
  is_alive m2 = (Returns false, m2).
Proof.
  intros Hstop Hc.
  assert (Hnone : kernel m2 = None).
  { destruct (construct_kernel_cases _ _ _ Hc) as [Hk _].
    rewrite Hk. exact (shutdown_kernel_returns_clears m m1 Hstop). }
  split; [|split; [exact Hnone|]].
  - unfold restart_kernel. unfold bind at 1. rewrite Hstop.
    now apply start_kernel_construct_raises.
  - unfold is_alive, bind, get_kernel, ret. now rewrite Hnone.
Qed.

(** A start leaves the session [s] in place and builds its handle on it. *)
Lemma start_kernel_keeps_session ts kw m s r m' :
  session m = Some s ->
  start_kernel ts kw m = (r, m') ->
  session m' = Some s /\
  exists evs, log m' = log m ++ evs /\ Forall (keeps_session s) evs.
Proof.
  intros Hs H.
  destruct (start_kernel_cases ts kw m r m' H)
    as [(e & Hc & ->) | (k & m1 & Hc & Hr & ->)];
    destruct (construct_kernel_cases m _ _ Hc)
      as (_ & pre & Hpre & [(e' & _ & Hn & _) | (s' & Hs' & Hsame & _ & Hlog)]);
    try congruence;
    destruct Hpre as [[Hn _] | [_ ->]]; try congruence;
    rewrite <- (Hsame s Hs) in *.
  - split; [exact Hs'|]. exists [EvKernelNew s]. split; [exact Hlog|].
    repeat constructor.
  - split; [exact Hs'|].
    exists [EvKernelNew s; EvSetKernel (Some k); EvKernelStart k ts]. split.
    + simpl. rewrite Hlog. simpl. now rewrite <- !app_assoc.
    + repeat constructor.
Qed.

(** So does a shutdown, which builds nothing. *)
Lemma shutdown_kernel_keeps_session m s r m' :
  session m = Some s ->
  shutdown_kernel m = (r, m') ->
  session m' = Some s /\
  exists evs, log m' = log m ++ evs /\ Forall (keeps_session s) evs.
Proof.
  intros Hs H.
  destruct (shutdown_kernel_cases m r m' H) as (Hs' & evs & Hlog & Hev & _).
  split; [congruence|]. exists evs. split; [exact Hlog|].
  apply Forall_forall. intros ev Hin.
  destruct (Hev ev Hin) as [Hstop | ->]; [|exact I].
  destruct ev; try discriminate; exact I.
Qed.

Lemma after_keeps_session op m s :
  session m = Some s ->
  session (after op m) = Some s /\
  exists evs, log (after op m) = log m ++ evs /\ Forall (keeps_session s) evs.
Proof.
  intros Hs.
  assert (Hsame : session m = Some s /\
                  exists evs, log m = log m ++ evs /\
                              Forall (keeps_session s) evs).
  { split; [exact Hs|]. exists []. now rewrite app_nil_r. }
  destruct op; simpl; auto.
  - destruct (start_kernel task_status kwds m) as [r m'] eqn:H.
    exact (start_kernel_keeps_session _ _ m s r m' Hs H).
  - destruct (shutdown_kernel m) as [r m'] eqn:H.
    exact (shutdown_kernel_keeps_session m s r m' Hs H).
  - rewrite restart_kernel_steps.
    destruct (shutdown_kernel m) as [r m1] eqn:H.
    destruct (shutdown_kernel_keeps_session m s r m1 Hs H)
      as (Hs1 & evs1 & Hlog1 & Hev1).
    destruct r as [[]|e]; simpl.
    + destruct (start_kernel task_status kw m1) as [r' m'] eqn:H'.
      destruct (start_kernel_keeps_session _ _ m1 s r' m' Hs1 H')
        as (Hs2 & evs2 & Hlog2 & Hev2).
      simpl. split; [exact Hs2|]. exists (evs1 ++ evs2). split.
      * now rewrite Hlog2, Hlog1, app_assoc.
      * apply Forall_app. now split.
    + split; [exact Hs1|]. now exists evs1.
  - split; [exact Hs|]. eexists. split; [reflexivity|]. repeat constructor.
  - unfold get_session. rewrite Hs. exact Hsame.
Qed.

(** X9. Once the manager has a session, no sequence of calls replaces it or
    builds another: the [session] trait keeps its value, and every handle
    built afterwards, by a start or by a restart, is built on that session. *)
Theorem session_kept_by_every_call ops m s :
  session m = Some s ->
  session (run_ops ops m) = Some s /\
  exists evs,
    log (run_ops ops m) = log m ++ evs /\ Forall (keeps_session s) evs.
Proof.
  revert m. induction ops as [|op ops IH]; intros m Hs; simpl.
  - split; [exact Hs|]. exists []. now rewrite app_nil_r.
  - destruct (after_keeps_session op m s Hs) as (Hs1 & evs1 & Hlog1 & Hev1).
    destruct (IH (after op m) Hs1) as (Hs2 & evs2 & Hlog2 & Hev2).
    split; [exact Hs2|]. exists (evs1 ++ evs2). split.
    + now rewrite Hlog2, Hlog1, app_assoc.
    + apply Forall_app. now split.
Qed.

(** X10. [has_kernel] and [is_alive] answer the same in every state, and a
    shutdown does nothing exactly in the states where they answer false. *)
Theorem has_kernel_is_alive_shutdown_guard m :
  has_kernel m = is_alive m /\
  (is_alive m = (Returns false, m) <-> shutdown_kernel m = (Returns tt, m)).
Proof.
  split; [reflexivity|].
  unfold is_alive, bind, get_kernel, ret.
  destruct (kernel m) as [k|] eqn:Hk.
  - split; [discriminate|].
    intros H. exfalso.
    destruct (shutdown_kernel_cases m _ _ H)
      as (_ & evs & _ & _ & [[_ Hn] | He]).
    + congruence.
    + destruct He as (e & Hr & _). discriminate.
  - split; intros _; [now apply shutdown_kernel_no_handle | reflexivity].
Qed.

(** X11. The options [client] hands on are the caller's, in the caller's
    order: a [kernel] option of the caller keeps its place, otherwise
    [kernel] is added last; no option is dropped or doubled. *)
Theorem client_keeps_option_order kw m :
  NoDup (Dict.keys kw) ->
  exists opts,
    snd (client kw m) = record (EvSuperClient opts) m /\
    NoDup (Dict.keys opts) /\
    ((In "kernel" (Dict.keys kw) /\ Dict.keys opts = Dict.keys kw) \/
     (~ In "kernel" (Dict.keys kw) /\
      Dict.keys opts = Dict.keys kw ++ ["kernel"])).
Proof.
  intros Hnd. exists (Dict.set "kernel" (py_of_kernel (kernel m)) kw).
  split; [reflexivity|].
  destruct (in_dec string_dec "kernel" (Dict.keys kw)) as [Hin | Hout].
  - rewrite (DictFacts.keys_set_present _ _ _ Hin). split; [exact Hnd|].
    left. now split.
  - rewrite (DictFacts.keys_set_absent _ _ _ Hout). split.
    + apply NoDup_app; [exact Hnd | repeat constructor; intros [] |].
      intros a Ha [<- | []]. contradiction.
    + right. now split.
Qed.

(** Whatever the call, a handle is held afterwards only if a session is. *)
Lemma after_keeps_handle_on_session op m :
  (kernel m = None \/ exists s, session m = Some s) ->
  kernel (after op m) = None \/ exists s, session (after op m) = Some s.
Proof.
  intros [Hk | [s Hs]].
  - destruct (starts op) eqn:Hop.
    + assert (Hstart : forall ts kw,
                 kernel (snd (start_kernel ts kw m)) = None \/
                 exists s, session (snd (start_kernel ts kw m)) = Some s).
      { intros ts kw. destruct (start_kernel ts kw m) as [r m'] eqn:H.
        destruct (start_kernel_cases ts kw m r m' H)
          as [(e & Hc & ->) | (k & m1 & Hc & Hr & ->)];
          destruct (construct_kernel_cases m _ _ Hc)
            as (Hk' & pre & _ & [(e' & Hbad & _) | (s' & Hs' & _)]); simpl.
        - left. congruence.
        - left. congruence.
        - discriminate Hbad.
        - right. now exists s'. }
      destruct op; try discriminate Hop; simpl.
      * apply Hstart.
      * rewrite restart_kernel_steps, (shutdown_kernel_no_handle m Hk).
        apply Hstart.
    + left. now apply after_keeps_no_handle.
  - right. exists s. now apply after_keeps_session.
Qed.

(** X12. On every manager a frontend can arrive at, by whatever calls and
    whatever their outcomes, a handle is held only if the session has been
    built: the manager never holds a handle without a session. *)
Theorem handle_held_only_with_session m k :
  reachable m ->
  kernel m = Some k ->
  exists s, session m = Some s.
Proof.
  intros [ops ->] Hk.
  assert (H : forall ops m0,
             (kernel m0 = None \/ exists s, session m0 = Some s) ->
             kernel (run_ops ops m0) = None \/
             exists s, session (run_ops ops m0) = Some s).
  { clear. induction ops as [|op ops IH]; intros m0 H0; simpl; [exact H0|].
    apply IH. now apply after_keeps_handle_on_session. }
  destruct (H ops new_manager (or_introl eq_refl)) as [Hn | Hs];
    [congruence | exact Hs].
Qed.

(** X13. After a restart that returns a handle is held, whether or not one
    was held before: [is_alive] answers true. *)
Theorem alive_after_restart (now newports : bool) ts kw m m' :
  restart_kernel now newports ts kw m = (Returns tt, m') ->
  is_alive m' = (Returns true, m').
Proof.
  rewrite restart_kernel_steps.
  destruct (shutdown_kernel m) as [[[]|e] m1]; [|discriminate].
  intros H. destruct (start_kernel_returns_handle ts kw m1 m' H) as [k Hk].
  unfold is_alive, bind, get_kernel, ret. now rewrite Hk.
Qed.

(** X14. Only a start, a shutdown or a restart changes the handle held: the
    queries, [interrupt_kernel], [signal_kernel], [client] and a read of the
    session leave the [kernel] trait as it is, whatever their outcome. *)
Theorem only_lifecycle_calls_change_handle op m :
  starts op = false ->
  op <> OpShutdown ->
  kernel (after op m) = kernel m.
Proof.
  destruct op; simpl; try discriminate; try congruence; intros _ _; auto.
  apply get_session_keeps_kernel.
Qed.

End Properties.

(** ** The theorems at work on the concrete collaborators *)

Lemma alive_after_start_until_shutdown_witness :
  (start_kernel Demo.key Demo.quiet tt [] Demo.fresh
   = (Returns tt, Demo.started) /\
   shutdown_kernel Demo.quiet Demo.started
   = (Returns tt, store_kernel None
                    (record (EvKernelStop 1)
                       (record (EvIopubStop 1) Demo.started)))) /\
  is_alive Demo.started = (Returns true, Demo.started) /\
  is_alive (store_kernel None
              (record (EvKernelStop 1) (record (EvIopubStop 1) Demo.started)))
  = (Returns false,
     store_kernel None
       (record (EvKernelStop 1) (record (EvIopubStop 1) Demo.started))).
Proof.
  split; [split; reflexivity|].
  apply (alive_after_start_until_shutdown Demo.key Demo.quiet tt []
           Demo.fresh); reflexivity.
Defined.

Lemma shutdown_without_handle_is_noop_witness :
  shutdown_kernel Demo.quiet Demo.running = (Returns tt, Demo.stopped) /\
  shutdown_kernel Demo.quiet Demo.stopped = (Returns tt, Demo.stopped) /\
  is_alive Demo.stopped = (Returns false, Demo.stopped).
Proof.
  split; [reflexivity|].
  apply (shutdown_without_handle_is_noop Demo.quiet Demo.stopped Demo.running).
  right. reflexivity.
Defined.



Lemma shutdown_stops_iopub_before_release_witness :
  kernel Demo.running = Some 7 /\
  exists evs,
    log Demo.stopped = log Demo.running ++ EvIopubStop 7 :: evs /\
    ((iopub_thread_stop Demo.quiet 7 (log Demo.running) = Returns tt /\
      evs = [EvKernelStop 7; EvSetKernel None] /\
      kernel Demo.stopped = None /\ Returns tt = Returns tt)
     \/
     (kernel Demo.stopped = Some 7 /\
      (forall v, ~ In (EvSetKernel v) evs) /\
      exists e, Returns tt = Raises e)).
Proof.
  split; [reflexivity|].
  apply (shutdown_stops_iopub_before_release Demo.quiet Demo.running 7
           (Returns tt) Demo.stopped); reflexivity.
Defined.

Lemma startup_errors_propagate_witness :
  startup_raises Demo.key Demo.failing_start tt Demo.fresh Demo.boom /\
  fst (start_kernel Demo.key Demo.failing_start tt Demo.options Demo.fresh)
  = Raises Demo.boom /\
  forall (now newports : bool) m0,
    shutdown_kernel Demo.failing_start m0 = (Returns tt, Demo.fresh) ->
    fst (restart_kernel Demo.key Demo.failing_start now newports tt
           Demo.options m0)
    = Raises Demo.boom.
Proof.
  assert (H : startup_raises Demo.key Demo.failing_start tt Demo.fresh
                Demo.boom).
  { right. eexists. eexists. split; reflexivity. }
  split; [exact H|].
  exact (startup_errors_propagate Demo.key Demo.failing_start tt Demo.options
           Demo.fresh Demo.boom H).
Defined.

Lemma failed_start_keeps_handle_witness :
  exists m2,
    start_kernel Demo.key Demo.failing_start tt [] Demo.fresh
    = (Raises Demo.boom, m2) /\
    kernel m2 = Some 1 /\
    is_alive m2 = (Returns true, m2).
Proof.
  apply (failed_start_keeps_handle Demo.key Demo.failing_start tt []
           Demo.fresh 1
           (record (EvKernelNew 0)
              {| kernel := None; session := Some 0;
                 log := [EvSessionNew Demo.key] |})
           Demo.boom); reflexivity.
Defined.

(** ** The further properties at work on the concrete collaborators *)



Lemma start_kernel_failed_construction_keeps_handle_witness :
  start_kernel Demo.key Demo.failing_new tt [] Demo.running
  = (Raises Demo.no_kernel, record (EvKernelNew 0) Demo.running) /\
  kernel (record (EvKernelNew 0) Demo.running) = kernel Demo.running /\
  exists evs,
    log (record (EvKernelNew 0) Demo.running) = log Demo.running ++ evs /\
    (forall v, ~ In (EvSetKernel v) evs) /\
    (forall k ts', ~ In (EvKernelStart k ts') evs).
Proof.
  apply (start_kernel_failed_construction_keeps_handle Demo.key
           Demo.failing_new tt [] Demo.running Demo.no_kernel
           (record (EvKernelNew 0) Demo.running)).
  reflexivity.
Defined.

Lemma restart_without_handle_is_start_witness :
  kernel Demo.fresh = None /\
  restart_kernel Demo.key Demo.quiet true true tt [] Demo.fresh
  = start_kernel Demo.key Demo.quiet tt [] Demo.fresh.
Proof.
  split; [reflexivity|].
  apply (restart_without_handle_is_start Demo.key Demo.quiet true true tt []
           Demo.fresh).
  reflexivity.
Defined.

Lemma restart_failed_shutdown_does_not_start_witness :
  restart_kernel Demo.key Demo.failing_iopub_stop false false tt []
    Demo.running
  = (Raises Demo.stuck, record (EvIopubStop 7) Demo.running) /\
  kernel (record (EvIopubStop 7) Demo.running) = kernel Demo.running /\
  kernel Demo.running <> None /\
  session (record (EvIopubStop 7) Demo.running) = session Demo.running /\
  exists evs,
    log (record (EvIopubStop 7) Demo.running) = log Demo.running ++ evs /\
    forall ev, In ev evs -> is_stop ev = true.
Proof.
  apply (restart_failed_shutdown_does_not_start Demo.key
           Demo.failing_iopub_stop false false tt [] Demo.running Demo.stuck
           (record (EvIopubStop 7) Demo.running)).
  reflexivity.
Defined.


Lemma restart_failed_construction_leaves_no_handle_witness :
  kernel Demo.running = Some 7 /\
  restart_kernel Demo.key Demo.failing_new false false tt [] Demo.running
  = (Raises Demo.no_kernel, record (EvKernelNew 0) Demo.stopped) /\
  kernel (record (EvKernelNew 0) Demo.stopped) = None /\
  is_alive (record (EvKernelNew 0) Demo.stopped)
  = (Returns false, record (EvKernelNew 0) Demo.stopped).
Proof.
  split; [reflexivity|].
  apply (restart_failed_construction_leaves_no_handle Demo.key
           Demo.failing_new false false tt [] Demo.running Demo.stopped
           Demo.no_kernel (record (EvKernelNew 0) Demo.stopped));
    reflexivity.
Defined.

Lemma session_kept_by_every_call_witness :
  session Demo.running = Some 0 /\
  session (run_ops Demo.key Demo.quiet Demo.calls Demo.running) = Some 0 /\
  exists evs,
    log (run_ops Demo.key Demo.quiet Demo.calls Demo.running)
    = log Demo.running ++ evs /\
    Forall (keeps_session 0) evs.
Proof.
  split; [reflexivity|].
  apply (session_kept_by_every_call Demo.key Demo.quiet Demo.calls
           Demo.running 0).
  reflexivity.
Defined.

Lemma client_keeps_option_order_witness :
  NoDup (Dict.keys Demo.options) /\
  exists opts,
    snd (client Demo.quiet Demo.options Demo.running)
    = record (EvSuperClient opts) Demo.running /\
    NoDup (Dict.keys opts) /\
    ((In "kernel" (Dict.keys Demo.options) /\
      Dict.keys opts = Dict.keys Demo.options) \/
     (~ In "kernel" (Dict.keys Demo.options) /\
      Dict.keys opts = Dict.keys Demo.options ++ ["kernel"])).
Proof.
  assert (H : NoDup (Dict.keys Demo.options)).
  { repeat constructor; simpl; intuition discriminate. }
  split; [exact H|].
  exact (client_keeps_option_order Demo.quiet Demo.options Demo.running H).
Defined.

Lemma handle_held_only_with_session_witness :
  reachable Demo.key Demo.quiet Demo.started /\
  kernel Demo.started = Some 1 /\
  exists s, session Demo.started = Some s.
Proof.
  assert (H : reachable Demo.key Demo.quiet Demo.started).
  { exists [OpStart tt []]. reflexivity. }
  split; [exact H|]. split; [reflexivity|].
  exact (handle_held_only_with_session Demo.key Demo.quiet Demo.started 1 H
           eq_refl).
Defined.

Lemma alive_after_restart_witness :
  restart_kernel Demo.key Demo.quiet true false tt [] Demo.running
  = (Returns tt, Demo.restarted) /\
  is_alive Demo.restarted = (Returns true, Demo.restarted).
Proof.
  split; [reflexivity|].
  apply (alive_after_restart Demo.key Demo.quiet true false tt []
           Demo.running Demo.restarted).
  reflexivity.
Defined.

Lemma only_lifecycle_calls_change_handle_witness :
  kernel (after Demo.key Demo.quiet (OpClient Demo.options) Demo.running)
  = kernel Demo.running.
Proof.
  apply (only_lifecycle_calls_change_handle Demo.key Demo.quiet
           (OpClient Demo.options) Demo.running);
    [reflexivity | discriminate].
Defined.
